(** * ClotCare backend: the [/predict] route of [app.py]

    A shallow embedding of the risk classification handler: the JSON
    payload as Python values, [float()] and [round()] on binary64 numbers,
    the validation loop over [questions], the calls into the pickled
    scaler and classifier, and the risk tier thresholds. *)

From Stdlib Require Import ZArith QArith Qabs Qfield Lqa.
From Stdlib Require Import String Ascii List Bool Lia Permutation.
From Stdlib Require DecimalString.
Import ListNotations.

Set Warnings "-register-all".

Local Open Scope string_scope.
Local Open Scope Z_scope.

(** ** Python floats

    A finite float is denoted by the rational it is equal to; the three
    non-finite values are constructors of their own.  The sign of zero is
    not kept: it can only show in [repr]. *)

Inductive pyfloat : Type :=
| Fin (q : Q)
| PosInf
| NegInf
| NaN.

Module Float.

(** Nearest integer to a rational, ties to the even one. *)
Definition round_half_even (q : Q) : Z :=
  let n := Qnum q in
  let d := Zpos (Qden q) in
  let f := n / d in
  let r2 := 2 * (n mod d) in
  if r2 <? d then f
  else if d <? r2 then f + 1
  else if Z.even f then f else f + 1.

Definition pow2 (e : Z) : Q :=
  if 0 <=? e then inject_Z (2 ^ e) else Qinv (inject_Z (2 ^ (- e))).

Definition pow10 (e : Z) : Q :=
  if 0 <=? e then inject_Z (10 ^ e) else Qinv (inject_Z (10 ^ (- e))).

(** floor (log2 |q|) for q <> 0. *)
Definition ilog2 (q : Q) : Z :=
  let a := Qabs q in
  let c := Z.log2 (Qnum a) - Z.log2 (Zpos (Qden a)) in
  if Qle_bool (pow2 c) a then c else c - 1.

(** Round to nearest binary64 (53 bits of precision, exponents down to
    that of the subnormals, ties to even); a magnitude that rounds to
    2^1024 or more becomes an infinity. *)
Definition binary64 (q : Q) : pyfloat :=
  if Qeq_bool q 0 then Fin 0
  else
    let e := Z.max (ilog2 q - 52) (- 1074) in
    let m := round_half_even (q * pow2 (- e)) in
    let v := Qred (inject_Z m * pow2 e) in
    if Qle_bool (pow2 1024) (Qabs v)
    then (if Qle_bool 0 q then PosInf else NegInf)
    else Fin v.

(** [x * 100] where 100 is the int literal of the source. *)
Definition mul100 (x : pyfloat) : pyfloat :=
  match x with
  | Fin q => binary64 (q * 100)
  | other => other
  end.

(** [round(x, 2)]: the exact value is rounded half-even to two decimals
    and the result is the float nearest to that decimal. *)
Definition round2 (x : pyfloat) : pyfloat :=
  match x with
  | Fin q => binary64 (inject_Z (round_half_even (q * 100)) / 100)
  | other => other
  end.

(** [x < n] for an int literal [n]: exact, and false on NaN. *)
Definition lt_int (x : pyfloat) (n : Z) : bool :=
  match x with
  | Fin q => negb (Qle_bool (inject_Z n) q)
  | NegInf => true
  | PosInf | NaN => false
  end.

End Float.

(** ** Python values that [request.json] can hold *)

Inductive pyval : Type :=
| VNone
| VBool (b : bool)
| VInt (z : Z)
| VFloat (f : pyfloat)
| VStr (s : string)
| VList (l : list pyval)
| VDict (items : list (string * pyval)).

(** Elements of [input_features]: [float(value)] or the int [1]/[0]. *)
Inductive pynum : Type :=
| PyInt (z : Z)
| PyFloat (f : pyfloat).

(** Instances of [Exception], with the text [str(e)] gives. *)
Inductive exn_class : Type :=
| AttributeError
| TypeError
| ValueError
| OverflowError
| IndexError
| OtherError (name : string).

Record exn : Type := Exn { exn_cls : exn_class; exn_text : string }.

Definition type_name (v : pyval) : string :=
  match v with
  | VNone => "NoneType"
  | VBool _ => "bool"
  | VInt _ => "int"
  | VFloat _ => "float"
  | VStr _ => "str"
  | VList _ => "list"
  | VDict _ => "dict"
  end.

(** ** [float(s)] on a string

    The grammar of the language reference: surrounding whitespace is
    dropped, underscores may sit between two digits, then an optional
    sign and either [inf], [infinity], [nan] in any case or a decimal
    number with an optional exponent.  Characters beyond ASCII are not
    recognised as digits or spaces. *)

Module FloatParse.

Definition code (c : ascii) : Z := Z.of_nat (nat_of_ascii c).

Definition is_space (c : ascii) : bool :=
  let n := code c in
  ((9 <=? n) && (n <=? 13)) || ((28 <=? n) && (n <=? 32)).

Definition is_digit (c : ascii) : bool :=
  let n := code c in (48 <=? n) && (n <=? 57).

Definition is_underscore (c : ascii) : bool := code c =? 95.

Definition lower (c : ascii) : ascii :=
  let n := code c in
  if (65 <=? n) && (n <=? 90) then ascii_of_nat (Z.to_nat (n + 32)) else c.

Fixpoint lstrip (l : list ascii) : list ascii :=
  match l with
  | c :: r => if is_space c then lstrip r else l
  | [] => []
  end.

Definition strip (l : list ascii) : list ascii :=
  rev (lstrip (rev (lstrip l))).

(** Removes the underscores, refusing one that does not follow a digit,
    one that does not precede a digit, and one at the end. *)
Fixpoint drop_underscores (prev_digit prev_us : bool) (l : list ascii)
  : option (list ascii) :=
  match l with
  | [] => if prev_us then None else Some []
  | c :: r =>
      if is_underscore c then
        if prev_digit then drop_underscores false true r else None
      else if prev_us && negb (is_digit c) then None
      else option_map (cons c) (drop_underscores (is_digit c) false r)
  end.

(** Reads a run of digits: the number read so far, how many digits were
    read, and what is left. *)
Fixpoint digits (l : list ascii) (acc count : Z) : Z * Z * list ascii :=
  match l with
  | c :: r =>
      if is_digit c then digits r (10 * acc + (code c - 48)) (count + 1)
      else (acc, count, l)
  | [] => (acc, count, [])
  end.

Definition sign (l : list ascii) : bool * list ascii :=
  match l with
  | c :: r =>
      if code c =? 45 then (true, r)
      else if code c =? 43 then (false, r)
      else (false, l)
  | [] => (false, [])
  end.

Definition exponent (l : list ascii) : option Z :=
  match l with
  | [] => Some 0
  | c :: r =>
      if code (lower c) =? 101 then
        let '(neg, r1) := sign r in
        match digits r1 0 0 with
        | (e, n, []) =>
            if 0 <? n then Some (if neg then - e else e) else None
        | _ => None
        end
      else None
  end.

Definition decimal (l : list ascii) : option Q :=
  let '(ip, ni, r1) := digits l 0 0 in
  let '(m, nf, r2) :=
    match r1 with
    | c :: r => if code c =? 46 then digits r ip 0 else (ip, 0, r1)
    | [] => (ip, 0, r1)
    end in
  if 0 <? ni + nf then
    match exponent r2 with
    | Some e => Some (inject_Z m * Float.pow10 (e - nf))%Q
    | None => None
    end
  else None.

Definition string_to_double (l : list ascii) : option pyfloat :=
  let '(neg, r) := sign l in
  let name := string_of_list_ascii (map lower r) in
  if (name =? "inf")%string || (name =? "infinity")%string
  then Some (if neg then NegInf else PosInf)
  else if (name =? "nan")%string then Some NaN
  else
    match decimal r with
    | Some q => Some (Float.binary64 (if neg then - q else q)%Q)
    | None => None
    end.

Definition float_of_string (s : string) : option pyfloat :=
  match drop_underscores false false (strip (list_ascii_of_string s)) with
  | Some l => string_to_double l
  | None => None
  end.

End FloatParse.

(** ** Builtins and library calls the handler makes *)

Definition string_of_nat (n : nat) : string :=
  DecimalString.NilZero.string_of_uint (Nat.to_uint n).

Fixpoint dict_lookup (items : list (string * pyval)) (k : string)
  : option pyval :=
  match items with
  | [] => None
  | (k', v) :: rest => if (k' =? k)%string then Some v else dict_lookup rest k
  end.

(** [data.get(k)]: the items of a dict are listed in insertion order and
    its keys are distinct; anything that is not a dict has no [get]. *)
Definition dict_get (data : pyval) (k : string) : exn + pyval :=
  match data with
  | VDict items =>
      inr (match dict_lookup items k with Some v => v | None => VNone end)
  | other =>
      inl (Exn AttributeError
             ("'" ++ type_name other ++ "' object has no attribute 'get'"))
  end.

Definition is_None (v : pyval) : bool :=
  match v with VNone => true | _ => false end.

(** [v == s] for a string literal [s]. *)
Definition eq_str (v : pyval) (s : string) : bool :=
  match v with VStr t => (t =? s)%string | _ => false end.

(** [v in [s1, s2, ...]] and [q in [s1, s2, ...]]. *)
Definition val_in (v : pyval) (l : list string) : bool := existsb (eq_str v) l.
Definition str_in (q : string) (l : list string) : bool :=
  existsb (String.eqb q) l.

(** [l[i]] on a sequence, with numpy's wording of the IndexError. *)
Definition getitem {X : Type} (l : list X) (i : nat) : exn + X :=
  match nth_error l i with
  | Some x => inr x
  | None =>
      inl (Exn IndexError
             ("index " ++ string_of_nat i ++
              " is out of bounds for axis 0 with size " ++
              string_of_nat (length l)))
  end.

(** A two-dimensional float64 array, row by row. *)
Definition ndarray : Type := list (list pyfloat).

Definition to_float64 (x : pynum) : pyfloat :=
  match x with
  | PyInt z => Float.binary64 (inject_Z z)
  | PyFloat f => f
  end.

(** [np.array(rows)] on rows of ints and floats: a float64 array. *)
Definition np_array (rows : list (list pynum)) : ndarray :=
  map (map to_float64) rows.

(** What [jsonify(d), code] builds; [jsonify(d)] alone has status 200. *)
Record response : Type := Response { body : list (string * string); status : Z }.

Definition jsonify (d : list (string * string)) (code : Z) : response :=
  {| body := d; status := code |}.

(** The three pickled objects.  Their code is not part of the repository:
    each method is a function of its argument and of the state [W] of the
    process, and either raises or returns. *)
Record Artifacts (W : Type) : Type := {
  scaler_transform : ndarray -> W -> (exn + ndarray) * W;
  model_predict : ndarray -> W -> (exn + list Z) * W;
  model_predict_proba : ndarray -> W -> (exn + ndarray) * W
}.
Arguments scaler_transform {W}.
Arguments model_predict {W}.
Arguments model_predict_proba {W}.

(** ** Control flow of a view function body

    A statement ends normally, leaves the function through [return], or
    raises.  [M] threads the process state through the statements. *)

Inductive flow (X : Type) : Type :=
| Normal (x : X)
| Return (r : response)
| Raise (e : exn).
Arguments Normal {X}.
Arguments Return {X}.
Arguments Raise {X}.

Definition M (W X : Type) : Type := W -> flow X * W.

Definition pure {W X} (c : flow X) : M W X := fun w => (c, w).

Definition bind {W X Y} (m : M W X) (k : X -> M W Y) : M W Y :=
  fun w =>
    match m w with
    | (Normal x, w') => k x w'
    | (Return r, w') => (Return r, w')
    | (Raise e, w') => (Raise e, w')
    end.

(** A call that raises or returns a value. *)
Definition call {W X} (f : W -> (exn + X) * W) : M W X :=
  fun w =>
    match f w with
    | (inl e, w') => (Raise e, w')
    | (inr x, w') => (Normal x, w')
    end.

Definition of_result {X} (r : exn + X) : flow X :=
  match r with inl e => Raise e | inr x => Normal x end.

Notation "x <- m ;; k" := (bind m (fun x => k))
  (at level 61, m at next level, right associativity).

(** ** The handler *)

Definition questions : list string :=
  [ "age"; "trauma"; "vt_history"; "cancer"; "lung"; "renal"; "diabetes";
    "temperature"; "bmi"; "edema"; "immobility"; "pneumonia"; "platelets";
    "af" ].

Definition numeric_questions : list string :=
  [ "age"; "temperature"; "bmi"; "platelets" ].

Definition yes_no : list string := [ "Yes"; "No" ].

(** The [if]/[elif] chain on [pe_probability]. *)
Definition risk_level (pe_probability : pyfloat) : string :=
  if Float.lt_int pe_probability 35 then "Low Risk"
  else if Float.lt_int pe_probability 50 then "Medium Risk"
  else if Float.lt_int pe_probability 75 then "High Risk"
  else "Severe Risk".

Section Handler.

Context {W : Type}.

(** [repr] of the interpreter, on the values a payload can hold. *)
Variable py_repr : pyval -> string.

(** [model.pkl] and [scaler.pkl], loaded when the module is imported. *)
Variable artifacts : Artifacts W.

(** [str(v)], also what an f-string puts for [{v}]. *)
Definition py_str (v : pyval) : string :=
  match v with
  | VStr s => s
  | other => py_repr other
  end.

(** [float(value)]. *)
Definition py_float (value : pyval) : exn + pyfloat :=
  match value with
  | VBool b => inr (Fin (if b then 1 else 0))
  | VInt z =>
      match Float.binary64 (inject_Z z) with
      | Fin q => inr (Fin q)
      | _ => inl (Exn OverflowError "int too large to convert to float")
      end
  | VFloat f => inr f
  | VStr s =>
      match FloatParse.float_of_string s with
      | Some f => inr f
      | None =>
          inl (Exn ValueError
                 ("could not convert string to float: " ++ py_repr (VStr s)))
      end
  | other =>
      inl (Exn TypeError
             ("float() argument must be a string or a real number, not '"
              ++ type_name other ++ "'"))
  end.

Definition missing_value (q : string) : response :=
  jsonify [("error", "Missing value for: " ++ q)] 400.

Definition invalid_value (q : string) (value : pyval) : response :=
  jsonify [("error", "Invalid value for " ++ q ++ ": " ++ py_str value
                     ++ ". Must be Yes or No.")] 400.

(** One turn of [for q in questions], from [input_features] so far. *)
Definition question (data : pyval) (q : string) (input_features : list pynum)
  : flow (list pynum) :=
  match dict_get data q with
  | inl e => Raise e
  | inr value =>
      if is_None value then Return (missing_value q)
      else if str_in q numeric_questions then
        match py_float value with
        | inl e => Raise e
        | inr f => Normal (input_features ++ [PyFloat f])%list
        end
      else if negb (val_in value yes_no) then Return (invalid_value q value)
      else Normal (input_features
                     ++ [PyInt (if eq_str value "Yes" then 1 else 0)])%list
  end.

(** The loop over the questions still to ask. *)
Fixpoint for_questions (data : pyval) (qs : list string)
  (input_features : list pynum) : flow (list pynum) :=
  match qs with
  | [] => Normal input_features
  | q :: rest =>
      match question data q input_features with
      | Normal input_features' => for_questions data rest input_features'
      | Return r => Return r
      | Raise e => Raise e
      end
  end.

Definition success (pe_probability : pyfloat) : response :=
  jsonify
    [ ("message", "The person has a " ++ py_str (VFloat pe_probability)
                  ++ "% chance of developing PE in the future.");
      ("risk_level", risk_level pe_probability) ] 200.

(** What follows the loop inside [try]; it ends in [return]. *)
Definition infer (input_features : list pynum) : M W Empty_set :=
  let input_array := np_array [input_features] in
  input_scaled <- call (scaler_transform artifacts input_array) ;;
  prediction <- call (model_predict artifacts input_scaled) ;;
  probabilities <- call (model_predict_proba artifacts input_scaled) ;;
  row <- pure (of_result (getitem probabilities 0)) ;;
  p1 <- pure (of_result (getitem row 1)) ;;
  let pe_probability := Float.round2 (Float.mul100 p1) in
  pure (Return (success pe_probability)).

(** The body of [try]. *)
Definition try_body (data : pyval) : M W Empty_set :=
  input_features <- pure (for_questions data questions []) ;;
  infer input_features.

(** [predict()], with [data = request.json] and the state of the process
    made explicit. *)
Definition predict (data : pyval) : W -> response * W :=
  fun w =>
    if is_None data then (jsonify [("error", "No JSON data provided")] 400, w)
    else
      match try_body data w with
      | (Normal x, _) => match x with end
      | (Return r, w') => (r, w')
      | (Raise e, w') => (jsonify [("error", exn_text e)] 500, w')
      end.

End Handler.

(** ** [repr] on payload values

    Strings are quoted and escaped as the interpreter does for ASCII
    text; a float prints the shortest run of digits that reads back as
    the same float, in fixed notation from 1e-4 up to 1e16. *)

Module Repr.

Definition string_of_Z (z : Z) : string :=
  DecimalString.NilZero.string_of_int (Z.to_int z).

Fixpoint join (sep : string) (l : list string) : string :=
  match l with
  | [] => EmptyString
  | [x] => x
  | x :: rest => x ++ sep ++ join sep rest
  end.

Fixpoint zeros (n : nat) : string :=
  match n with O => EmptyString | S k => "0" ++ zeros k end.

Definition hex_digit (n : Z) : ascii :=
  ascii_of_nat (Z.to_nat (if n <? 10 then 48 + n else 87 + n)).

Definition escape (quote : ascii) (c : ascii) : string :=
  let n := FloatParse.code c in
  if (n =? 92) || Ascii.eqb c quote then String "\" (String c EmptyString)
  else if n =? 10 then "\n"
  else if n =? 13 then "\r"
  else if n =? 9 then "\t"
  else if (n <? 32) || (n =? 127)
  then String "\" (String "x" (String (hex_digit (n / 16))
                                 (String (hex_digit (n mod 16)) EmptyString)))
  else String c EmptyString.

Definition double_quote : ascii := ascii_of_nat 34.

Definition has (c : ascii) (s : string) : bool :=
  existsb (Ascii.eqb c) (list_ascii_of_string s).

Definition repr_str (s : string) : string :=
  let quote :=
    if has "'" s && negb (has double_quote s) then double_quote
    else "'"%char in
  String quote
    (String.concat EmptyString (map (escape quote) (list_ascii_of_string s))
     ++ String quote EmptyString).

(** floor (log10 q) for q > 0. *)
Definition ilog10 (q : Q) : Z :=
  let c := (Float.ilog2 q * 30103) / 100000 in
  if negb (Qle_bool (Float.pow10 c) q) then c - 1
  else if Qle_bool (Float.pow10 (c + 1)) q then c + 1
  else c.

(** The [n]-digit decimal nearest to [a > 0]: its digits as a number and
    the power of ten that scales them. *)
Definition to_digits (a : Q) (n : Z) : Z * Z :=
  let e := ilog10 a - (n - 1) in
  let d := Float.round_half_even (a * Float.pow10 (- e)) in
  if d =? 10 ^ n then (10 ^ (n - 1), e + 1) else (d, e).

Definition reads_back (a : Q) (de : Z * Z) : bool :=
  match Float.binary64 (inject_Z (fst de) * Float.pow10 (snd de)) with
  | Fin b => Qeq_bool a b
  | _ => false
  end.

(** Tries 1, 2, ... digits, at most [fuel] more times. *)
Fixpoint shortest (a : Q) (n : Z) (fuel : nat) : Z * Z :=
  match fuel with
  | O => to_digits a n
  | S k =>
      if reads_back a (to_digits a n) then to_digits a n
      else shortest a (n + 1) k
  end.

Definition layout (ds : string) (decpt : Z) : string :=
  let n := Z.of_nat (String.length ds) in
  if (decpt <=? -4) || (16 <? decpt) then
    let e := decpt - 1 in
    let es := string_of_Z (Z.abs e) in
    String.substring 0 1 ds
    ++ (if 1 <? n then "." ++ String.substring 1 (String.length ds - 1) ds
        else EmptyString)
    ++ "e" ++ (if e <? 0 then "-" else "+")
    ++ (if Z.abs e <? 10 then "0" else EmptyString) ++ es
  else if decpt <=? 0 then "0." ++ zeros (Z.to_nat (- decpt)) ++ ds
  else if decpt <? n then
    String.substring 0 (Z.to_nat decpt) ds ++ "."
    ++ String.substring (Z.to_nat decpt) (Z.to_nat (n - decpt)) ds
  else ds ++ zeros (Z.to_nat (decpt - n)) ++ ".0".

Definition repr_float (x : pyfloat) : string :=
  match x with
  | PosInf => "inf"
  | NegInf => "-inf"
  | NaN => "nan"
  | Fin q =>
      if Qeq_bool q 0 then "0.0"
      else
        let '(d, e) := shortest (Qabs q) 1 16 in
        let ds := string_of_Z d in
        (if Qle_bool 0 q then EmptyString else "-")
        ++ layout ds (e + Z.of_nat (String.length ds))
  end.

Fixpoint py_repr (v : pyval) : string :=
  match v with
  | VNone => "None"
  | VBool b => if b then "True" else "False"
  | VInt z => string_of_Z z
  | VFloat f => repr_float f
  | VStr s => repr_str s
  | VList l => "[" ++ join ", " (map py_repr l) ++ "]"
  | VDict items =>
      "{" ++ join ", " (map (fun kv => repr_str (fst kv) ++ ": "
                                        ++ py_repr (snd kv)) items) ++ "}"
  end.

End Repr.


(** ** Stand-ins for the pickled objects *)

Module Mock.

(** A scaler fitted on [n] features that leaves the values as they are
    and, like scikit-learn's, refuses rows of another width. *)
Definition transform {W : Type} (n : nat) (X : ndarray) (w : W)
  : (exn + ndarray) * W :=
  match find (fun row => negb (length row =? n)%nat) X with
  | Some row =>
      (inl (Exn ValueError
              ("X has " ++ string_of_nat (length row)
               ++ " features, but StandardScaler is expecting "
               ++ string_of_nat n ++ " features as input.")), w)
  | None => (inr X, w)
  end.

(** A classifier that gives every row the probability [p] of PE. *)
Definition predict_proba {W : Type} (p : pyfloat) (X : ndarray) (w : W)
  : (exn + ndarray) * W :=
  (inr (map (fun _ => [Fin 1; p]) X), w).

Definition predict {W : Type} (p : pyfloat) (X : ndarray) (w : W)
  : (exn + list Z) * W :=
  (inr (map (fun _ => if Float.lt_int p 1 then 0 else 1) X), w).

Definition artifacts (W : Type) (n : nat) (p : pyfloat) : Artifacts W :=
  {| scaler_transform := transform n;
     model_predict := predict p;
     model_predict_proba := predict_proba p |}.

(** The payload of scenario A. *)
Definition patient : list (string * pyval) :=
  [ ("age", VInt 45); ("trauma", VStr "No"); ("vt_history", VStr "No");
    ("cancer", VStr "No"); ("lung", VStr "No"); ("renal", VStr "No");
    ("diabetes", VStr "No"); ("temperature", VFloat (Fin 37));
    ("bmi", VFloat (Fin (45 # 2))); ("edema", VStr "No");
    ("immobility", VStr "No"); ("pneumonia", VStr "No");
    ("platelets", VInt 250); ("af", VStr "No") ].

(** [d[k] = v] on the list of items. *)
Fixpoint set_item (items : list (string * pyval)) (k : string) (v : pyval)
  : list (string * pyval) :=
  match items with
  | [] => [(k, v)]
  | (k', v') :: rest =>
      if (k' =? k)%string then (k, v) :: rest
      else (k', v') :: set_item rest k v
  end.

(** [del d[k]]. *)
Fixpoint del_item (items : list (string * pyval)) (k : string)
  : list (string * pyval) :=
  match items with
  | [] => []
  | (k', v') :: rest =>
      if (k' =? k)%string then rest else (k', v') :: del_item rest k
  end.

(** Scenario B: no [bmi]. *)
Definition without_bmi : list (string * pyval) := del_item patient "bmi".


(** Scenario C and its like: a yes/no question answered otherwise. *)
Definition trauma (v : pyval) : list (string * pyval) :=
  set_item patient "trauma" v.


(** [age] is not a number. *)
Definition age_abc : list (string * pyval) :=
  set_item patient "age" (VStr "abc").

(** [age] is not a number and [trauma] is not a yes/no answer. *)
Definition age_abc_trauma_maybe : list (string * pyval) :=
  set_item (trauma (VStr "maybe")) "age" (VStr "abc").

(** [temperature] is sent as a string. *)
Definition temperature_string : list (string * pyval) :=
  set_item patient "temperature" (VStr "37.5").

(** The float nearest to 0.34999. *)
Definition p_34999 : pyfloat := Float.binary64 (34999 # 100000).

End Mock.

(** ** A spy on the pickled objects: every call is written down *)

Inductive called : Type :=
| Transform (X : ndarray)
| Predict (X : ndarray)
| PredictProba (X : ndarray).

Definition logged {W X : Type} (ev : called) (f : W -> (exn + X) * W)
  : W * list called -> (exn + X) * (W * list called) :=
  fun s =>
    let '(r, w') := f (fst s) in (r, (w', (snd s ++ [ev])%list)).

Definition spy {W : Type} (a : Artifacts W) : Artifacts (W * list called) :=
  {| scaler_transform X := logged (Transform X) (scaler_transform a X);
     model_predict X := logged (Predict X) (model_predict a X);
     model_predict_proba X :=
       logged (PredictProba X) (model_predict_proba a X) |}.


(** ** What a payload holds for a question *)

Definition value_of (items : list (string * pyval)) (q : string) : pyval :=
  match dict_lookup items q with Some v => v | None => VNone end.

Definition missing (items : list (string * pyval)) (q : string) : bool :=
  is_None (value_of items q).

Definition is_numeric (q : string) : bool := str_in q numeric_questions.

(** Some float is what [float(v)] gives. *)
Definition converts (v : pyval) : bool :=
  match v with
  | VBool _ | VFloat _ => true
  | VInt z =>
      match Float.binary64 (inject_Z z) with Fin _ => true | _ => false end
  | VStr s =>
      match FloatParse.float_of_string s with Some _ => true | None => false end
  | _ => false
  end.

(** The turn of the loop for [q] goes on to the next question. *)
Definition passes (items : list (string * pyval)) (q : string) : bool :=
  negb (missing items q)
  && (if is_numeric q then converts (value_of items q)
      else val_in (value_of items q) yes_no).



(** ** Tiers in their order *)


(** The place of a tier among the four, from the mildest. *)
Definition tier_rank (tier : string) : nat :=
  if (tier =? "Low Risk")%string then 0
  else if (tier =? "Medium Risk")%string then 1
  else if (tier =? "High Risk")%string then 2
  else 3.

(** ** Arithmetic on floats and numbers *)

Module Arith64.

Definition negative (q : Q) : bool := negb (Qle_bool 0 q).

Definition opp (x : pyfloat) : pyfloat :=
  match x with
  | Fin q => Fin (- q)
  | PosInf => NegInf
  | NegInf => PosInf
  | NaN => NaN
  end.

Definition add (x y : pyfloat) : pyfloat :=
  match x, y with
  | NaN, _ | _, NaN => NaN
  | Fin a, Fin b => Float.binary64 (a + b)
  | PosInf, NegInf | NegInf, PosInf => NaN
  | PosInf, _ | _, PosInf => PosInf
  | NegInf, _ | _, NegInf => NegInf
  end.

Definition sub (x y : pyfloat) : pyfloat := add x (opp y).

(** An infinity times the finite [q]. *)
Definition scale_inf (positive : bool) (q : Q) : pyfloat :=
  if Qeq_bool q 0 then NaN
  else if Bool.eqb positive (negative q) then NegInf else PosInf.

Definition mul (x y : pyfloat) : pyfloat :=
  match x, y with
  | NaN, _ | _, NaN => NaN
  | Fin a, Fin b => Float.binary64 (a * b)
  | PosInf, Fin q | Fin q, PosInf => scale_inf true q
  | NegInf, Fin q | Fin q, NegInf => scale_inf false q
  | PosInf, PosInf | NegInf, NegInf => PosInf
  | PosInf, NegInf | NegInf, PosInf => NegInf
  end.

(** [round(x, ndigits)] for [ndigits >= 0]. *)
Definition round (x : pyfloat) (ndigits : Z) : pyfloat :=
  match x with
  | Fin q =>
      Float.binary64
        (inject_Z (Float.round_half_even (q * Float.pow10 ndigits))
         * Float.pow10 (- ndigits))
  | other => other
  end.

End Arith64.

(** [a - b] on numbers: ints stay ints, anything else is done in floats. *)
Definition num_sub (a b : pynum) : pynum :=
  match a, b with
  | PyInt x, PyInt y => PyInt (x - y)
  | _, _ => PyFloat (Arith64.sub (to_float64 a) (to_float64 b))
  end.

(** [seq[i]] on a list, where a negative index counts from the end. *)
Definition list_item {X : Type} (seq : list X) (i : Z) : exn + X :=
  let n := Z.of_nat (length seq) in
  let j := if i <? 0 then i + n else i in
  match (if (0 <=? j) && (j <? n) then nth_error seq (Z.to_nat j) else None)
  with
  | Some x => inr x
  | None => inl (Exn IndexError "list index out of range")
  end.

(** [s.strip()], on ASCII white space. *)
Definition py_strip (s : string) : string :=
  string_of_list_ascii (FloatParse.strip (list_ascii_of_string s)).

(** A string is true when it is not empty. *)
Definition truthy (s : string) : bool :=
  match s with EmptyString => false | _ => true end.

(** ** Statements that raise or go on, over the state of the process *)

Definition E (W X : Type) : Type := W -> (exn + X) * W.

Definition eret {W X : Type} (x : X) : E W X := fun w => (inr x, w).

Definition ebind {W X Y : Type} (m : E W X) (k : X -> E W Y) : E W Y :=
  fun w =>
    match m w with
    | (inl e, w') => (inl e, w')
    | (inr x, w') => k x w'
    end.

(** A call that cannot raise. *)
Definition elift {W X : Type} (f : W -> X * W) : E W X :=
  fun w => let '(x, w') := f w in (inr x, w').

Definition eresult {W X : Type} (r : exn + X) : E W X := fun w => (r, w).

Notation "x <~ m ;; k" := (ebind m (fun x => k))
  (at level 61, m at next level, right associativity).

(** ** The emergency mail *)

(** The four names [app.py] imports from [email_config]. *)
Record EmailConfig : Type := {
  EMAIL_SENDER : string;
  EMAIL_PASSWORD : string;
  EMAIL_RECIPIENT : string;
  ADDITIONAL_RECIPIENTS : list string
}.

(** The values set when [email_config] cannot be imported. *)
Definition fallback_config : EmailConfig :=
  {| EMAIL_SENDER := "your-email@gmail.com";
     EMAIL_PASSWORD := "your-app-password";
     EMAIL_RECIPIENT := "your-email@gmail.com";
     ADDITIONAL_RECIPIENTS := [] |}.

(** [MIMEText(payload, subtype)]. *)
Record MIMEText : Type := { payload : string; subtype : string }.

(** A [MIMEMultipart] with the headers set and the parts attached. *)
Record MIMEMultipart : Type := {
  headers : list (string * string);
  attached : list MIMEText
}.

(** The calls made on [smtplib]: the constructor and four methods. *)
Inductive smtp_call : Type :=
| Connect (host : string) (port : Z)
| StartTLS
| Login (user password : string)
| SendMail (from_addr to_addr text : string)
| Quit.

(** What the function reaches outside the program: the clock, read and
    formatted by [datetime.now().strftime(format)]; the serialisation
    [msg.as_string()]; the SMTP server; the standard output. *)
Record Mailer (W : Type) : Type := {
  now_strftime : string -> W -> string * W;
  as_string : MIMEMultipart -> W -> (exn + string) * W;
  smtp : smtp_call -> W -> (exn + unit) * W;
  print : string -> W -> W
}.
Arguments now_strftime {W}.
Arguments as_string {W}.
Arguments smtp {W}.
Arguments print {W}.

Definition subject : string :=
  "🚨 EMERGENCY: ClotCare Curing System Activated".

Definition body_before_time : string :=
  "
        🚨 EMERGENCY ALERT 🚨
        
        The ClotCare Curing System has been activated!
        
        Time: ".

Definition body_after_time : string :=
  "
        
        This indicates a potential pulmonary embolism emergency.
        
        Please check the system immediately and take appropriate action.
        
        ---
        ClotCare Emergency Response System
        Automated Alert
        ".

Section Email.

Context {W : Type}.
Variable config : EmailConfig.
Variable mailer : Mailer W.

(** [for recipient in ADDITIONAL_RECIPIENTS]. *)
Fixpoint for_recipients (recipients : list string) (text : string)
  : E W unit :=
  match recipients with
  | [] => eret tt
  | recipient :: rest =>
      if truthy (py_strip recipient) then
        _ <~ smtp mailer (SendMail (EMAIL_SENDER config)
                            (py_strip recipient) text) ;;
        for_recipients rest text
      else for_recipients rest text
  end.

(** The body of [try] in [send_emergency_email]. *)
Definition email_try : E W unit :=
  time <~ elift (now_strftime mailer "%Y-%m-%d %H:%M:%S") ;;
  let body := body_before_time ++ time ++ body_after_time in
  let msg :=
    {| headers := [ ("From", EMAIL_SENDER config);
                    ("To", EMAIL_RECIPIENT config);
                    ("Subject", subject) ];
       attached := [ {| payload := body; subtype := "plain" |} ] |} in
  _ <~ smtp mailer (Connect "smtp.gmail.com" 587) ;;
  _ <~ smtp mailer StartTLS ;;
  _ <~ smtp mailer (Login (EMAIL_SENDER config) (EMAIL_PASSWORD config)) ;;
  text <~ as_string mailer msg ;;
  _ <~ smtp mailer (SendMail (EMAIL_SENDER config) (EMAIL_RECIPIENT config)
                      text) ;;
  _ <~ for_recipients (ADDITIONAL_RECIPIENTS config) text ;;
  smtp mailer Quit.

Definition send_emergency_email : W -> bool * W :=
  fun w =>
    match email_try w with
    | (inr _, w') => (true, w')
    | (inl e, w') => (false, print mailer ("Email error: " ++ exn_text e) w')
    end.

Definition trigger_emergency_email : W -> response * W :=
  fun w =>
    let '(success, w') := send_emergency_email w in
    if success
    then (jsonify [("message", "Emergency email sent successfully")] 200, w')
    else (jsonify [("error", "Failed to send emergency email")] 500, w').

End Email.

(** The SMTP calls of a run in which every call succeeds. *)
Definition all_calls (config : EmailConfig) (text : string) : list smtp_call :=
  ([ Connect "smtp.gmail.com" 587; StartTLS;
     Login (EMAIL_SENDER config) (EMAIL_PASSWORD config);
     SendMail (EMAIL_SENDER config) (EMAIL_RECIPIENT config) text ]
   ++ map (fun r => SendMail (EMAIL_SENDER config) (py_strip r) text)
        (filter (fun r => truthy (py_strip r)) (ADDITIONAL_RECIPIENTS config))
   ++ [ Quit ])%list.

(** A spy on the mailer: SMTP calls and printed lines, as they happen. *)
Inductive mail_event : Type :=
| Smtp (c : smtp_call)
| Printed (line : string).

Definition mail_spy {W : Type} (m : Mailer W) : Mailer (W * list mail_event) :=
  {| now_strftime format s :=
       let '(t, w') := now_strftime m format (fst s) in (t, (w', snd s));
     as_string msg s :=
       let '(r, w') := as_string m msg (fst s) in (r, (w', snd s));
     smtp c s :=
       let '(r, w') := smtp m c (fst s) in
       (r, (w', (snd s ++ [Smtp c])%list));
     print line s :=
       (print m line (fst s), (snd s ++ [Printed line])%list) |}.

Definition smtp_calls (log : list mail_event) : list smtp_call :=
  flat_map (fun ev => match ev with Smtp c => [c] | Printed _ => [] end) log.

Definition printed_lines (log : list mail_event) : list string :=
  flat_map (fun ev => match ev with Smtp _ => [] | Printed l => [l] end) log.

(** ** The vital signs feed *)

(** The module [random]: [random()] and the private [_randbelow(n)] that
    [choice] and [randint] draw from. *)
Record Random (W : Type) : Type := {
  rng_random : W -> pyfloat * W;
  rng_randbelow : Z -> W -> Z * W
}.
Arguments rng_random {W}.
Arguments rng_randbelow {W}.

(** [random()] is in [0, 1) and [_randbelow(n)] in [0, n). *)
Definition sound_rng {W : Type} (rng : Random W) : Prop :=
  (forall w, exists q, fst (rng_random rng w) = Fin q /\ (0 <= q < 1)%Q) /\
  (forall n w, 0 < n -> 0 <= fst (rng_randbelow rng n w) < n).

Definition ecg_pattern : list pyfloat :=
  map Float.binary64
    [ 3042 # 10; 3123 # 10; 2935 # 10; 3624 # 10; 3234 # 10; 3017 # 10;
      5341 # 10; 3172 # 10; 3093 # 10; 2865 # 10; 3754 # 10; 3294 # 10;
      3117 # 10; 5811 # 10 ]%Q.

Section LiveData.

Context {W : Type}.
Variable py_repr : pyval -> string.
Variable rng : Random W.

(** [random.choice(seq)]. *)
Definition choice {X : Type} (seq : list X) : E W X :=
  match seq with
  | [] => eresult (inl (Exn IndexError "Cannot choose from an empty sequence"))
  | _ =>
      i <~ elift (rng_randbelow rng (Z.of_nat (length seq))) ;;
      eresult (list_item seq i)
  end.

(** [random.randint(a, b)], that is [randrange(a, b + 1)]. *)
Definition randint (a b : Z) : E W Z :=
  let width := b + 1 - a in
  if 0 <? width then
    i <~ elift (rng_randbelow rng width) ;;
    eret (a + i)
  else
    eresult (inl (Exn ValueError
                    ("empty range in randrange(" ++ Repr.string_of_Z a ++ ", "
                     ++ Repr.string_of_Z (b + 1) ++ ")"))).

(** [random.uniform(a, b)]: [a + (b - a) * random()]. *)
Definition uniform (a b : pynum) : E W pyfloat :=
  r <~ elift (rng_random rng) ;;
  eret (Arith64.add (to_float64 a)
          (Arith64.mul (to_float64 (num_sub b a)) r)).

(** [live_data()]: the dict handed to [jsonify], or the exception that
    leaves the view. *)
Definition live_data : E W (list (string * pyval)) :=
  ecg <~ choice ecg_pattern ;;
  hr <~ randint 60 110 ;;
  spo2 <~ uniform (PyInt 94) (PyInt 99) ;;
  temp <~ uniform (PyFloat (Float.binary64 (365 # 10)))
            (PyFloat (Float.binary64 38)) ;;
  eret [ ("ecg", VStr (py_str py_repr (VFloat ecg)));
         ("hr", VInt hr);
         ("spo2", VFloat (Arith64.round spo2 1));
         ("temp", VFloat (Arith64.round temp 1)) ].

End LiveData.

(** ** Stand-ins for the mail server and the random source *)

Module Stub.

(** A server that refuses the [n]-th call made on it, counting from 0,
    and a clock stopped at one instant.  The state counts the calls. *)
Definition smtp_refusing (n : nat) (c : smtp_call) (calls : nat)
  : (exn + unit) * nat :=
  if (calls =? n)%nat
  then (inl (Exn (OtherError "SMTPServerDisconnected")
               "Connection unexpectedly closed"), S calls)
  else (inr tt, S calls).

Definition mailer (n : nat) : Mailer nat :=
  {| now_strftime _ w := ("2024-05-01 12:00:00", w);
     as_string msg w :=
       (inr (String.concat EmptyString (map payload (attached msg))), w);
     smtp := smtp_refusing n;
     print _ w := w |}.

Definition config : EmailConfig :=
  {| EMAIL_SENDER := "alerts@example.org";
     EMAIL_PASSWORD := "secret";
     EMAIL_RECIPIENT := "doctor@example.org";
     ADDITIONAL_RECIPIENTS :=
       [ " nurse@example.org "; "   "; EmptyString; "ward@example.org" ] |}.

(** The text the stand-in serialises the message to. *)
Definition text : string :=
  body_before_time ++ "2024-05-01 12:00:00" ++ body_after_time.

(** A random source that replays a list of draws: each draw takes the
    next number [k] of the list, [random()] giving [k / 2^53] and
    [_randbelow(n)] giving [k mod n]. *)
Definition next (draws : list Z) : Z * list Z :=
  match draws with
  | [] => (0, [])
  | k :: rest => (k mod 2 ^ 53, rest)
  end.

Definition rng : Random (list Z) :=
  {| rng_random draws :=
       let '(k, rest) := next draws in (Fin (k # 9007199254740992), rest);
     rng_randbelow n draws :=
       let '(k, rest) := next draws in (k mod n, rest) |}.

(** Payloads that differ in the order of the keys, in keys that are not
    questions, and in null against absent. *)
Definition patient_with_extras : list (string * pyval) :=
  ([ ("name", VStr "A. Patient"); ("notes", VNone) ]
   ++ rev Mock.patient ++ [ ("priority", VInt 1) ])%list.


End Stub.

(** ** Facts about the loop *)

Section Loop.

Context {W : Type}.
Variable py_repr : pyval -> string.
Variable artifacts : Artifacts W.


Lemma float_converts (v : pyval) (f : pyfloat) :
  py_float py_repr v = inr f -> converts v = true.
Proof.
  destruct v as [ | b | z | f' | s | l | items]; simpl; try discriminate;
    try reflexivity.
  - destruct (Float.binary64 (inject_Z z)); try discriminate; reflexivity.
  - destruct (FloatParse.float_of_string s); try discriminate; reflexivity.
Qed.

(** A turn of the loop on a dict, by what the dict holds for [q]. *)
Lemma question_dict (items : list (string * pyval)) (q : string)
  (acc : list pynum) :
  question py_repr (VDict items) q acc =
  if missing items q then Return (missing_value q)
  else if is_numeric q then
    match py_float py_repr (value_of items q) with
    | inl e => Raise e
    | inr f => Normal (acc ++ [PyFloat f])%list
    end
  else if val_in (value_of items q) yes_no
  then Normal (acc ++ [PyInt (if eq_str (value_of items q) "Yes"
                              then 1 else 0)])%list
  else Return (invalid_value py_repr q (value_of items q)).
Proof.
  unfold question, dict_get, missing, is_numeric.
  fold (value_of items q).
  destruct (is_None (value_of items q)); [reflexivity | ].
  destruct (str_in q numeric_questions); [reflexivity | ].
  destruct (val_in (value_of items q) yes_no); reflexivity.
Qed.


Lemma question_normal (items : list (string * pyval)) (q : string)
  (acc acc' : list pynum) :
  question py_repr (VDict items) q acc = Normal acc' -> passes items q = true.
Proof.
  unfold passes. rewrite question_dict.
  destruct (missing items q); cbn [negb andb]; [discriminate | ].
  destruct (is_numeric q).
  - destruct (py_float py_repr (value_of items q)) eqn:Hf; [discriminate | ].
    intros _. eapply float_converts; eassumption.
  - destruct (val_in (value_of items q) yes_no); [reflexivity | discriminate].
Qed.



Lemma for_questions_normal (items : list (string * pyval)) (qs : list string)
  (acc feats : list pynum) :
  for_questions py_repr (VDict items) qs acc = Normal feats ->
  Forall (fun q => passes items q = true) qs.
Proof.
  revert acc. induction qs as [ | q qs IH]; intros acc; simpl.
  - constructor.
  - destruct (question py_repr (VDict items) q acc) eqn:Hq; try discriminate.
    intros H. constructor.
    + eapply question_normal; eassumption.
    + eapply IH; eassumption.
Qed.


(** [predict] on a loop that returned or raised: nothing else runs. *)
Lemma predict_of_loop (data : pyval) (w : W) :
  is_None data = false ->
  predict py_repr artifacts data w =
  match for_questions py_repr data questions [] with
  | Normal feats =>
      match infer py_repr artifacts feats w with
      | (Normal x, _) => match x with end
      | (Return r, w') => (r, w')
      | (Raise e, w') => (jsonify [("error", exn_text e)] 500, w')
      end
  | Return r => (r, w)
  | Raise e => (jsonify [("error", exn_text e)] 500, w)
  end.
Proof.
  intros Hn. unfold predict, try_body, bind, pure. rewrite Hn.
  destruct (for_questions py_repr data questions []); reflexivity.
Qed.

End Loop.

(** ** Risk tiers *)

Lemma lt_int_true (q : Q) (n : Z) :
  (q < inject_Z n)%Q -> Float.lt_int (Fin q) n = true.
Proof.
  intros H. unfold Float.lt_int.
  destruct (Qle_bool (inject_Z n) q) eqn:E; [ | reflexivity].
  apply Qle_bool_iff in E. exfalso. exact (Qlt_not_le _ _ H E).
Qed.

Lemma lt_int_false (q : Q) (n : Z) :
  (inject_Z n <= q)%Q -> Float.lt_int (Fin q) n = false.
Proof.
  intros H. unfold Float.lt_int.
  apply Qle_bool_iff in H. now rewrite H.
Qed.

Ltac literal := unfold Qle, Qlt; simpl; lia.

Ltac below n H := rewrite (lt_int_true _ n) by exact H.
Ltac above n H :=
  rewrite (lt_int_false _ n)
    by (eapply Qle_trans; [ | exact H]; literal).

(** C1. On a probability between 0 and 100 percent the tier is Low below
    35, Medium from 35 up to but not including 50, High from 50 up to but
    not including 75, and Severe from 75 on. *)
Theorem risk_level_thresholds (p : Q) :
  (0 <= p <= 100)%Q ->
  ((p < 35)%Q -> risk_level (Fin p) = "Low Risk") /\
  ((35 <= p < 50)%Q -> risk_level (Fin p) = "Medium Risk") /\
  ((50 <= p < 75)%Q -> risk_level (Fin p) = "High Risk") /\
  ((75 <= p)%Q -> risk_level (Fin p) = "Severe Risk").
Proof.
  intros _. unfold risk_level. repeat split.
  - intros H. below 35 H. reflexivity.
  - intros [Hl Hu]. above 35 Hl. below 50 Hu. reflexivity.
  - intros [Hl Hu]. above 35 Hl. above 50 Hl. below 75 Hu. reflexivity.
  - intros Hl. above 35 Hl. above 50 Hl. above 75 Hl. reflexivity.
Qed.

Ltac evaluated :=
  match goal with
  | |- risk_level ?x = _ =>
      let y := eval vm_compute in x in change x with y
  end.

(** The eight boundary values of the specification, each as the float
    the decimal literal denotes. *)
Lemma risk_level_boundaries :
  risk_level (Float.binary64 (3499 # 100)) = "Low Risk" /\
  risk_level (Float.binary64 35) = "Medium Risk" /\
  risk_level (Float.binary64 (4999 # 100)) = "Medium Risk" /\
  risk_level (Float.binary64 50) = "High Risk" /\
  risk_level (Float.binary64 (7499 # 100)) = "High Risk" /\
  risk_level (Float.binary64 75) = "Severe Risk" /\
  risk_level (Float.binary64 0) = "Low Risk" /\
  risk_level (Float.binary64 100) = "Severe Risk".
Proof.
  refine (conj _ (conj _ (conj _ (conj _ (conj _ (conj _ (conj _ _)))))));
    evaluated.
  - apply risk_level_thresholds; [split | ]; literal.
  - apply risk_level_thresholds; split; literal.
  - apply risk_level_thresholds; split; literal.
  - apply risk_level_thresholds; split; literal.
  - apply risk_level_thresholds; split; literal.
  - apply risk_level_thresholds; [split | ]; literal.
  - apply risk_level_thresholds; [split | ]; literal.
  - apply risk_level_thresholds; [split | ]; literal.
Defined.

(** ** Validation *)

Section Validation.

Context {W : Type}.
Variable py_repr : pyval -> string.
Variable artifacts : Artifacts W.






End Validation.

(** ** Validation on the payloads of the scenarios *)






(** C2. A payload that is valid but for [age = "abc"]: the ValueError of
    [float] reaches the handler of [try], so the response is 500 and its
    error is the text of the exception, which names no question.  A
    numeric string is converted: [float("37.5")] is 37.5 and the loop goes
    on. *)
Theorem non_numeric_age_is_500 (W : Type) (a : Artifacts W) (w : W) :
  predict Repr.py_repr a (VDict Mock.age_abc) w
  = (jsonify [("error", "could not convert string to float: 'abc'")] 500, w)
  /\ py_float Repr.py_repr (value_of Mock.temperature_string "temperature")
     = inr (Fin (75 # 2))
  /\ passes Mock.temperature_string "temperature" = true.
Proof.
  split; [ | split; vm_compute; reflexivity].
  rewrite predict_of_loop by reflexivity. reflexivity.
Qed.

(** C10. [age] is not a number and [trauma] is not a yes/no answer: the
    first question at fault is [age], and the response is the 500 of the
    handler of [try], which names neither. *)
Theorem two_faults_name_no_field (W : Type) (a : Artifacts W) (w : W) :
  predict Repr.py_repr a (VDict Mock.age_abc_trauma_maybe) w
  = (jsonify [("error", "could not convert string to float: 'abc'")] 500, w).
Proof.
  rewrite predict_of_loop by reflexivity. reflexivity.
Qed.

(** ** After the loop: scaler, classifier, tier *)

Section Inference.

Context {W : Type}.
Variable py_repr : pyval -> string.
Variable artifacts : Artifacts W.

(** The statements after the loop, call by call. *)
Lemma infer_steps (feats : list pynum) (w : W) :
  infer py_repr artifacts feats w =
  match scaler_transform artifacts (np_array [feats]) w with
  | (inl e, w1) => (Raise e, w1)
  | (inr input_scaled, w1) =>
      match model_predict artifacts input_scaled w1 with
      | (inl e, w2) => (Raise e, w2)
      | (inr _, w2) =>
          match model_predict_proba artifacts input_scaled w2 with
          | (inl e, w3) => (Raise e, w3)
          | (inr probabilities, w3) =>
              match getitem probabilities 0 with
              | inl e => (Raise e, w3)
              | inr row =>
                  match getitem row 1 with
                  | inl e => (Raise e, w3)
                  | inr p1 =>
                      (Return (success py_repr
                                 (Float.round2 (Float.mul100 p1))), w3)
                  end
              end
          end
      end
  end.
Proof.
  unfold infer, bind, call, pure.
  destruct (scaler_transform artifacts (np_array [feats]) w)
    as [[e | Xs] w1]; [reflexivity | ].
  destruct (model_predict artifacts Xs w1) as [[e | labels] w2];
    [reflexivity | ].
  destruct (model_predict_proba artifacts Xs w2) as [[e | probs] w3];
    [reflexivity | ].
  destruct (getitem probs 0) as [e | row]; cbn [of_result];
    [reflexivity | ].
  destruct (getitem row 1) as [e | p1]; reflexivity.
Qed.

(** Every [return] inside the loop carries status 400. *)
Lemma loop_returns_400 (data : pyval) (qs : list string) (acc : list pynum)
  (resp : response) :
  for_questions py_repr data qs acc = Return resp -> status resp = 400.
Proof.
  revert acc. induction qs as [ | q qs IH]; intros acc; simpl.
  - discriminate.
  - destruct (question py_repr data q acc) as [acc' | r | e] eqn:Hq.
    + apply IH.
    + intros [= <-]. unfold question in Hq.
      destruct (dict_get data q) as [e | value]; [discriminate | ].
      destruct (is_None value); [now injection Hq as <- | ].
      destruct (str_in q numeric_questions).
      * destruct (py_float py_repr value); discriminate.
      * destruct (negb (val_in value yes_no)); [now injection Hq as <- | ].
        discriminate.
    + discriminate.
Qed.

(** A question that does not pass keeps the loop from ending normally. *)
Lemma loop_not_normal (items : list (string * pyval)) (q : string)
  (feats : list pynum) :
  In q questions -> passes items q = false ->
  for_questions py_repr (VDict items) questions [] <> Normal feats.
Proof.
  intros Hin Hq Hn. apply for_questions_normal in Hn.
  rewrite Forall_forall in Hn. specialize (Hn q Hin). congruence.
Qed.


(** Every call of [predict] ends in a response, whose status is 200, 400
    or 500. *)
Lemma predict_answers (data : pyval) (w : W) :
  In (status (fst (predict py_repr artifacts data w))) [200; 400; 500].
Proof.
  destruct (is_None data) eqn:Hn.
  - unfold predict. rewrite Hn. simpl. tauto.
  - rewrite predict_of_loop by exact Hn.
    destruct (for_questions py_repr data questions [])
      as [feats | r | e] eqn:Hloop.
    + rewrite infer_steps.
      destruct (scaler_transform artifacts (np_array [feats]) w)
        as [[e | Xs] w1]; [simpl; tauto | ].
      destruct (model_predict artifacts Xs w1) as [[e | labels] w2];
        [simpl; tauto | ].
      destruct (model_predict_proba artifacts Xs w2) as [[e | probs] w3];
        [simpl; tauto | ].
      destruct (getitem probs 0) as [e | row]; [simpl; tauto | ].
      destruct (getitem row 1) as [e | p1]; simpl; tauto.
    + cbn [fst]. rewrite (loop_returns_400 _ _ _ _ Hloop). simpl. tauto.
    + simpl. tauto.
Qed.




End Inference.

(** ** The order of the keys of the payload *)

Lemma dict_lookup_perm (items items' : list (string * pyval)) (k : string) :
  NoDup (map fst items) -> Permutation items items' ->
  dict_lookup items k = dict_lookup items' k.
Proof.
  intros Hnd Hp. induction Hp as [ | [k1 v1] l l' Hp IH
                                   | [k1 v1] [k2 v2] l
                                   | l l' l'' Hp1 IH1 Hp2 IH2 ].
  - reflexivity.
  - simpl in *. inversion Hnd; subst.
    destruct (k1 =? k)%string; [reflexivity | auto].
  - simpl in *. inversion Hnd as [ | ? ? Hin _]; subst.
    destruct (k1 =? k)%string eqn:E1; destruct (k2 =? k)%string eqn:E2;
      try reflexivity.
    apply String.eqb_eq in E1, E2. subst. exfalso. apply Hin. now left.
  - rewrite IH1 by exact Hnd. apply IH2.
    eapply Permutation_NoDup; [ | exact Hnd].
    apply Permutation_map. exact Hp1.
Qed.

Section KeyOrder.

Context {W : Type}.
Variable py_repr : pyval -> string.
Variable artifacts : Artifacts W.

Lemma for_questions_perm (items items' : list (string * pyval))
  (qs : list string) (acc : list pynum) :
  NoDup (map fst items) -> Permutation items items' ->
  for_questions py_repr (VDict items') qs acc
  = for_questions py_repr (VDict items) qs acc.
Proof.
  intros Hnd Hp. revert acc. induction qs as [ | q qs IH]; intros acc.
  - reflexivity.
  - simpl. unfold question, dict_get.
    rewrite <- (dict_lookup_perm items items' q Hnd Hp).
    destruct (dict_lookup items q) as [v | ]; [ | reflexivity].
    destruct (is_None v); [reflexivity | ].
    destruct (str_in q numeric_questions).
    + destruct (py_float py_repr v); [reflexivity | apply IH].
    + destruct (negb (val_in v yes_no)); [reflexivity | apply IH].
Qed.

(** Two payloads with the same keys and values, listed in any order, get
    the same response. *)
Lemma predict_perm (items items' : list (string * pyval)) (w : W) :
  NoDup (map fst items) -> Permutation items items' ->
  predict py_repr artifacts (VDict items') w
  = predict py_repr artifacts (VDict items) w.
Proof.
  intros Hnd Hp. rewrite !predict_of_loop by reflexivity.
  rewrite (for_questions_perm items items' questions [] Hnd Hp).
  reflexivity.
Qed.



(** C5. When some question has no value, or some yes/no question has a
    value other than [Yes] and [No], [predict] calls neither the scaler nor
    the classifier: the spy has nothing new in its log, the state is as it
    was, and the response is not a 200. *)
Theorem failed_validation_calls_nothing (items : list (string * pyval))
  (q : string) (w : W) (log : list called) :
  In q questions ->
  missing items q = true
  \/ (is_numeric q = false /\ val_in (value_of items q) yes_no = false) ->
  snd (predict py_repr (spy artifacts) (VDict items) (w, log)) = (w, log)
  /\ status (fst (predict py_repr (spy artifacts) (VDict items) (w, log)))
     <> 200.
Proof.
  intros Hin Hbad.
  assert (Hq : passes items q = false).
  { unfold passes. destruct Hbad as [Hm | [Hn Hv]].
    - now rewrite Hm.
    - rewrite Hn, Hv. apply andb_false_r. }
  rewrite predict_of_loop by reflexivity.
  destruct (for_questions py_repr (VDict items) questions [])
    as [feats | r | e] eqn:Hloop.
  - exfalso. exact (loop_not_normal py_repr items q feats Hin Hq Hloop).
  - split; [reflexivity | ]. cbn [fst].
    rewrite (loop_returns_400 py_repr _ _ _ _ Hloop). discriminate.
  - split; [reflexivity | ]. cbn. discriminate.
Qed.


End KeyOrder.

(** ** The scenarios, run against the stand-ins *)

(** Scenario B with a spy: [bmi] is left out and the spy sees no call. *)
Lemma missing_bmi_calls_nothing :
  In "bmi" questions /\
  missing Mock.without_bmi "bmi" = true /\
  snd (predict Repr.py_repr (spy (Mock.artifacts unit 14 (Fin 0)))
         (VDict Mock.without_bmi) (tt, []))
  = (tt, []).
Proof.
  split; [simpl; tauto | ]. split; [reflexivity | ].
  apply (failed_validation_calls_nothing Repr.py_repr
           (Mock.artifacts unit 14 (Fin 0)) Mock.without_bmi "bmi" tt []).
  - simpl; tauto.
  - left. reflexivity.
Defined.







(** ** Rounding to binary64 keeps a number between two floats *)

Lemma round_half_even_ge (q : Q) (N : Z) :
  (inject_Z N <= q)%Q -> N <= Float.round_half_even q.
Proof.
  destruct q as [n d].
  unfold Qle, Float.round_half_even. cbn [Qnum Qden inject_Z]. intros H.
  assert (Hf : N <= n / Z.pos d)
    by (apply Z.div_le_lower_bound; lia).
  destruct (2 * (n mod Z.pos d) <? Z.pos d); [lia | ].
  destruct (Z.pos d <? 2 * (n mod Z.pos d)); [lia | ].
  destruct (Z.even (n / Z.pos d)); lia.
Qed.

Lemma round_half_even_le (q : Q) (N : Z) :
  (q <= inject_Z N)%Q -> Float.round_half_even q <= N.
Proof.
  destruct q as [n d].
  unfold Qle, Float.round_half_even. cbn [Qnum Qden inject_Z]. intros H.
  pose proof (Z.div_mod n (Z.pos d) ltac:(lia)) as Hdm.
  pose proof (Z.mod_pos_bound n (Z.pos d) ltac:(lia)) as Hm.
  set (f := n / Z.pos d) in *.
  set (r := n mod Z.pos d) in *.
  destruct (2 * r <? Z.pos d) eqn:E1.
  - nia.
  - apply Z.ltb_ge in E1.
    assert (f + 1 <= N) by nia.
    destruct (Z.pos d <? 2 * r); [lia | ].
    destruct (Z.even f); lia.
Qed.

Lemma pow2_nonneg (e : Z) : 0 <= e -> Float.pow2 e = inject_Z (2 ^ e).
Proof.
  intros H. unfold Float.pow2.
  destruct (0 <=? e) eqn:E; [reflexivity | ]. apply Z.leb_gt in E. lia.
Qed.

Lemma pow2_nonpos (e : Z) :
  e <= 0 -> (Float.pow2 e == / inject_Z (2 ^ (- e)))%Q.
Proof.
  intros H. unfold Float.pow2. destruct (0 <=? e) eqn:E.
  - apply Z.leb_le in E. assert (e = 0) by lia. subst e. reflexivity.
  - reflexivity.
Qed.

(** A number that is at most [2^j] has no higher binary exponent. *)
Lemma ilog2_le (q : Q) (j : Z) :
  (0 < q)%Q -> 0 <= j -> (q <= inject_Z (2 ^ j))%Q -> Float.ilog2 q <= j.
Proof.
  intros Hpos Hj Hq. unfold Float.ilog2.
  destruct q as [n d]. unfold Qlt, Qle in *.
  cbn [Qnum Qden inject_Z Qabs] in *.
  assert (Hn : 0 < n) by lia.
  replace (Z.abs n) with n by lia.
  assert (Hc : Z.log2 n - Z.log2 (Z.pos d) <= j).
  { assert (Hle : Z.log2 n <= Z.log2 (Z.pos d * 2 ^ j))
      by (apply Z.log2_le_mono; lia).
    rewrite Z.log2_mul_pow2 in Hle by lia. lia. }
  destruct (Qle_bool _ _); lia.
Qed.

Lemma inject_Z_pos (z : Z) : 0 < z -> (0 < inject_Z z)%Q.
Proof. intros H. unfold Qlt. cbn [Qnum Qden inject_Z]. lia. Qed.

Lemma inject_Z_nonneg (z : Z) : 0 <= z -> (0 <= inject_Z z)%Q.
Proof. intros H. unfold Qle. cbn [Qnum Qden inject_Z]. lia. Qed.

Lemma binary64_between (q : Q) (A B k j : Z) :
  0 <= A -> 0 <= k -> 0 <= j -> j + k <= 52 -> B <= 2 ^ (j + k) ->
  (inject_Z A <= q * inject_Z (2 ^ k))%Q ->
  (q * inject_Z (2 ^ k) <= inject_Z B)%Q ->
  exists v, Float.binary64 q = Fin v
            /\ (inject_Z A <= v * inject_Z (2 ^ k))%Q
            /\ (v * inject_Z (2 ^ k) <= inject_Z B)%Q.
Proof.
  intros HA Hk Hj Hjk HB Hlo Hhi.
  assert (HK : (0 < inject_Z (2 ^ k))%Q)
    by (apply inject_Z_pos, Z.pow_pos_nonneg; lia).
  unfold Float.binary64. destruct (Qeq_bool q 0) eqn:E0.
  - apply Qeq_bool_iff in E0. exists 0%Q. split; [reflexivity | ].
    rewrite E0 in Hlo, Hhi. split; assumption.
  - apply Qeq_bool_neq in E0.
    assert (Hq0 : (0 <= q)%Q).
    { apply (Qmult_le_r _ _ _ HK). rewrite Qmult_0_l.
      eapply Qle_trans; [ | exact Hlo]. apply inject_Z_nonneg, HA. }
    assert (Hqpos : (0 < q)%Q).
    { apply Qle_lteq in Hq0. destruct Hq0 as [H | H]; [exact H | ].
      exfalso. apply E0. symmetry. exact H. }
    assert (Hqj : (q <= inject_Z (2 ^ j))%Q).
    { apply (Qmult_le_r _ _ _ HK). eapply Qle_trans; [exact Hhi | ].
      rewrite <- inject_Z_mult, <- Zle_Qle, <- Z.pow_add_r by lia.
      exact HB. }
    pose proof (ilog2_le q j Hqpos Hj Hqj) as Hlog.
    set (e := Z.max (Float.ilog2 q - 52) (- 1074)).
    assert (He : e <= - k) by lia.
    rewrite (pow2_nonneg (- e)) by lia.
    set (m := Float.round_half_even (q * inject_Z (2 ^ (- e)))).
    set (P := 2 ^ (- e - k)).
    assert (HP : 0 < P) by (apply Z.pow_pos_nonneg; lia).
    assert (HPQ : (0 < inject_Z P)%Q) by (apply inject_Z_pos, HP).
    assert (Hsplit : 2 ^ (- e) = 2 ^ k * P)
      by (unfold P; rewrite <- Z.pow_add_r by lia; f_equal; lia).
    assert (Hscale : (q * inject_Z (2 ^ (- e))
                      == q * inject_Z (2 ^ k) * inject_Z P)%Q)
      by (rewrite Hsplit, inject_Z_mult; ring).
    assert (Hm1 : A * P <= m).
    { apply round_half_even_ge. rewrite Hscale, inject_Z_mult.
      apply Qmult_le_compat_r; [exact Hlo | apply Qlt_le_weak; exact HPQ]. }
    assert (Hm2 : m <= B * P).
    { apply round_half_even_le. rewrite Hscale, inject_Z_mult.
      apply Qmult_le_compat_r; [exact Hhi | apply Qlt_le_weak; exact HPQ]. }
    set (v := Qred (inject_Z m * Float.pow2 e)).
    assert (Hvk : (v * inject_Z (2 ^ k) == inject_Z m / inject_Z P)%Q).
    { unfold v. rewrite Qred_correct, pow2_nonpos by lia.
      rewrite Hsplit, inject_Z_mult. field.
      split; intros H; [rewrite H in HPQ | rewrite H in HK];
        now apply Qlt_irrefl in HPQ + now apply Qlt_irrefl in HK. }
    assert (Hvlo : (inject_Z A <= v * inject_Z (2 ^ k))%Q).
    { rewrite Hvk. apply Qle_shift_div_l; [exact HPQ | ].
      rewrite <- inject_Z_mult, <- Zle_Qle. exact Hm1. }
    assert (Hvhi : (v * inject_Z (2 ^ k) <= inject_Z B)%Q).
    { rewrite Hvk. apply Qle_shift_div_r; [exact HPQ | ].
      rewrite <- inject_Z_mult, <- Zle_Qle. exact Hm2. }
    destruct (Qle_bool (Float.pow2 1024) (Qabs v)) eqn:Eo.
    + exfalso. apply Qle_bool_iff in Eo.
      assert (Hv0 : (0 <= v)%Q).
      { apply (Qmult_le_r _ _ _ HK). rewrite Qmult_0_l.
        eapply Qle_trans; [ | exact Hvlo]. apply inject_Z_nonneg, HA. }
      rewrite (Qabs_pos _ Hv0), (pow2_nonneg 1024) in Eo by lia.
      assert (Hvj : (v <= inject_Z (2 ^ j))%Q).
      { apply (Qmult_le_r _ _ _ HK). eapply Qle_trans; [exact Hvhi | ].
        rewrite <- inject_Z_mult, <- Zle_Qle, <- Z.pow_add_r by lia.
        exact HB. }
      pose proof (Qle_trans _ _ _ Eo Hvj) as Hbad.
      rewrite <- Zle_Qle in Hbad.
      assert (2 ^ j < 2 ^ 1024) by (apply Z.pow_lt_mono_r; lia).
      lia.
    + exists v. split; [reflexivity | split; assumption].
Qed.

(** A bound without scaling: between two integers below [2^j]. *)
Lemma binary64_range (q : Q) (A B j : Z) :
  0 <= A -> 0 <= j <= 52 -> B <= 2 ^ j ->
  (inject_Z A <= q <= inject_Z B)%Q ->
  exists v, Float.binary64 q = Fin v /\ (inject_Z A <= v <= inject_Z B)%Q.
Proof.
  intros HA Hj HB [Hlo Hhi].
  destruct (binary64_between q A B 0 j) as (v & Hv & Hvlo & Hvhi);
    try lia.
  - rewrite Z.add_0_r. exact HB.
  - change (inject_Z (2 ^ 0)) with 1%Q. rewrite Qmult_1_r. exact Hlo.
  - change (inject_Z (2 ^ 0)) with 1%Q. rewrite Qmult_1_r. exact Hhi.
  - change (inject_Z (2 ^ 0)) with 1%Q in Hvlo, Hvhi.
    rewrite Qmult_1_r in Hvlo, Hvhi. exists v. tauto.
Qed.



(** ** More on [predict] *)

Lemma lt_int_inv_true (q : Q) (n : Z) :
  Float.lt_int (Fin q) n = true -> (q < inject_Z n)%Q.
Proof.
  unfold Float.lt_int. intros H. apply negb_true_iff in H.
  apply Qnot_le_lt. intros Hle. apply Qle_bool_iff in Hle. congruence.
Qed.

Lemma lt_int_inv_false (q : Q) (n : Z) :
  Float.lt_int (Fin q) n = false -> (inject_Z n <= q)%Q.
Proof.
  unfold Float.lt_int. intros H. apply negb_false_iff in H.
  apply Qle_bool_iff. exact H.
Qed.


Ltac threshold p q n :=
  let Hp := fresh "Hp" in
  let Hq := fresh "Hq" in
  destruct (Float.lt_int (Fin p) n) eqn:Hp;
  destruct (Float.lt_int (Fin q) n) eqn:Hq;
  [ | | exfalso; apply lt_int_inv_false in Hp; apply lt_int_inv_true in Hq;
        match goal with
        | H : (p <= q)%Q |- _ =>
            exact (Qlt_irrefl _ (Qle_lt_trans _ _ _
                                   (Qle_trans _ _ _ Hp H) Hq))
        end | ].

(** X5. A higher probability never gets a milder tier. *)
Theorem risk_level_monotone (p q : Q) :
  (p <= q)%Q ->
  (tier_rank (risk_level (Fin p)) <= tier_rank (risk_level (Fin q)))%nat.
Proof.
  intros Hpq. unfold risk_level.
  threshold p q 35; threshold p q 50; threshold p q 75;
    cbv [tier_rank]; simpl; lia.
Qed.

Section MorePredict.

Context {W : Type}.
Variable py_repr : pyval -> string.
Variable artifacts : Artifacts W.

(** X1. A payload that is JSON but not an object (an array, a string, a
    number, a boolean) has no [get]: the response is 500 with the text of
    the AttributeError, and nothing else happens. *)
Theorem non_object_payload_is_500 (data : pyval) (w : W) :
  match data with VNone | VDict _ => False | _ => True end ->
  predict py_repr artifacts data w
  = (jsonify [("error", "'" ++ type_name data
                        ++ "' object has no attribute 'get'")] 500, w).
Proof.
  intros H. destruct data; try contradiction;
    rewrite predict_of_loop by reflexivity; reflexivity.
Qed.

(** The loop reads the payload only through the values of the
    questions. *)
Lemma for_questions_values (items items' : list (string * pyval))
  (qs : list string) (acc : list pynum) :
  (forall q, In q qs -> value_of items q = value_of items' q) ->
  for_questions py_repr (VDict items) qs acc
  = for_questions py_repr (VDict items') qs acc.
Proof.
  revert acc. induction qs as [ | q qs IH]; intros acc Hv.
  - reflexivity.
  - simpl for_questions. rewrite !question_dict. unfold missing.
    rewrite <- (Hv q) by (left; reflexivity).
    destruct (is_None (value_of items q)); [reflexivity | ].
    destruct (is_numeric q).
    + destruct (py_float py_repr (value_of items q)); [reflexivity | ].
      apply IH. intros q' Hq'. apply Hv. right. exact Hq'.
    + destruct (val_in (value_of items q) yes_no); [ | reflexivity].
      apply IH. intros q' Hq'. apply Hv. right. exact Hq'.
Qed.

(** X3. The response depends on the payload only through the values it
    holds for the 14 questions: other keys, the order of the keys, and
    whether a key is absent or null make no difference. *)
Theorem only_question_values_matter (items items' : list (string * pyval))
  (w : W) :
  (forall q, In q questions -> value_of items q = value_of items' q) ->
  predict py_repr artifacts (VDict items) w
  = predict py_repr artifacts (VDict items') w.
Proof.
  intros Hv. rewrite !predict_of_loop by reflexivity.
  rewrite (for_questions_values items items' questions [] Hv). reflexivity.
Qed.


End MorePredict.

Section Outcome.

Context {W : Type}.
Variable py_repr : pyval -> string.
Variable artifacts : Artifacts W.



End Outcome.

(** ** The emergency mail, call by call *)

Section MailTrace.

Context {W : Type}.
Variable config : EmailConfig.
Variable m : Mailer W.

Lemma spied_smtp (c : smtp_call) (w : W) (log : list mail_event) :
  smtp (mail_spy m) c (w, log)
  = (fst (smtp m c w), (snd (smtp m c w), (log ++ [Smtp c])%list)).
Proof. cbn. destruct (smtp m c w); reflexivity. Qed.

Lemma spied_now (format : string) (w : W) (log : list mail_event) :
  now_strftime (mail_spy m) format (w, log)
  = (fst (now_strftime m format w), (snd (now_strftime m format w), log)).
Proof. cbn. destruct (now_strftime m format w); reflexivity. Qed.

Lemma spied_as_string (msg : MIMEMultipart) (w : W) (log : list mail_event) :
  as_string (mail_spy m) msg (w, log)
  = (fst (as_string m msg w), (snd (as_string m msg w), log)).
Proof. cbn. destruct (as_string m msg w); reflexivity. Qed.

(** The calls of the loop over the additional recipients: all of the
    expected ones when it ends, the first of them when it raises. *)
Lemma for_recipients_trace (rs : list string) (text : string) (w : W)
  (log : list mail_event) :
  exists calls suffix,
    snd (snd (for_recipients config (mail_spy m) rs text (w, log)))
    = (log ++ map Smtp calls)%list
    /\ (calls ++ suffix)%list
       = map (fun r => SendMail (EMAIL_SENDER config) (py_strip r) text)
           (filter (fun r => truthy (py_strip r)) rs)
    /\ (forall u, fst (for_recipients config (mail_spy m) rs text (w, log))
                  = inr u -> suffix = []).
Proof.
  revert w log. induction rs as [ | r rs IH]; intros w log.
  - exists [], []. simpl. rewrite app_nil_r. auto.
  - cbn [for_recipients filter].
    destruct (truthy (py_strip r)); [ | apply IH].
    unfold ebind. rewrite spied_smtp.
    destruct (smtp m _ w) as [[e | u] w1]; cbn [fst snd].
    + exists [SendMail (EMAIL_SENDER config) (py_strip r) text].
      eexists. split; [reflexivity | ]. split; [reflexivity | ].
      intros u. discriminate.
    + destruct (IH w1 (log ++ [Smtp (SendMail (EMAIL_SENDER config)
                                       (py_strip r) text)])%list)
        as (calls & suffix & Hlog & Hcalls & Hok).
      exists (SendMail (EMAIL_SENDER config) (py_strip r) text :: calls),
        suffix.
      split; [rewrite Hlog, <- app_assoc; reflexivity | ].
      split; [cbn [app map]; rewrite Hcalls; reflexivity | exact Hok].
Qed.

(** The calls of [try]: a beginning of the full list, and all of it when
    nothing raises. *)
Lemma email_try_trace (w : W) :
  exists calls text suffix,
    snd (snd (email_try config (mail_spy m) (w, []))) = map Smtp calls
    /\ (calls ++ suffix)%list = all_calls config text
    /\ (forall u, fst (email_try config (mail_spy m) (w, [])) = inr u ->
                  suffix = []).
Proof.
  unfold email_try, ebind, elift. rewrite spied_now.
  destruct (now_strftime m _ w) as [time w0]. cbn [fst snd].
  rewrite spied_smtp. destruct (smtp m _ w0) as [[e | u1] w1]; cbn [fst snd].
  { exists [Connect "smtp.gmail.com" 587], EmptyString. eexists.
    split; [reflexivity | ]. split; [reflexivity | ].
    intros u. discriminate. }
  rewrite spied_smtp. destruct (smtp m _ w1) as [[e | u2] w2]; cbn [fst snd].
  { exists [Connect "smtp.gmail.com" 587; StartTLS], EmptyString. eexists.
    split; [reflexivity | ]. split; [reflexivity | ].
    intros u. discriminate. }
  rewrite spied_smtp. destruct (smtp m _ w2) as [[e | u3] w3]; cbn [fst snd].
  { exists [Connect "smtp.gmail.com" 587; StartTLS;
            Login (EMAIL_SENDER config) (EMAIL_PASSWORD config)],
      EmptyString. eexists.
    split; [reflexivity | ]. split; [reflexivity | ].
    intros u. discriminate. }
  rewrite spied_as_string.
  destruct (as_string m _ w3) as [[e | text] w4]; cbn [fst snd].
  { exists [Connect "smtp.gmail.com" 587; StartTLS;
            Login (EMAIL_SENDER config) (EMAIL_PASSWORD config)],
      EmptyString. eexists.
    split; [reflexivity | ]. split; [reflexivity | ].
    intros u. discriminate. }
  rewrite spied_smtp. destruct (smtp m _ w4) as [[e | u4] w5]; cbn [fst snd].
  { exists [Connect "smtp.gmail.com" 587; StartTLS;
            Login (EMAIL_SENDER config) (EMAIL_PASSWORD config);
            SendMail (EMAIL_SENDER config) (EMAIL_RECIPIENT config) text],
      text. eexists.
    split; [reflexivity | ]. split; [reflexivity | ].
    intros u. discriminate. }
  match goal with
  | |- context [for_recipients config (mail_spy m) ?rs text (w5, ?l)] =>
      destruct (for_recipients_trace rs text w5 l)
        as (calls & suffix & Hlog & Hcalls & Hok);
      destruct (for_recipients config (mail_spy m) rs text (w5, l))
        as [[e | u5] [w6 log6]]
  end; cbn [fst snd] in *.
  { exists ([Connect "smtp.gmail.com" 587; StartTLS;
             Login (EMAIL_SENDER config) (EMAIL_PASSWORD config);
             SendMail (EMAIL_SENDER config) (EMAIL_RECIPIENT config) text]
            ++ calls)%list, text, (suffix ++ [Quit])%list.
    split; [rewrite Hlog; reflexivity | ].
    split; [ | intros u; discriminate].
    unfold all_calls. rewrite <- Hcalls, <- !app_assoc. reflexivity. }
  rewrite spied_smtp. rewrite (Hok u5 eq_refl), app_nil_r in Hcalls.
  exists (all_calls config text), text, [].
  split.
  - destruct (smtp m Quit w6) as [[e | u6] w7]; cbn [fst snd];
      rewrite Hlog; unfold all_calls; rewrite <- Hcalls;
      rewrite !map_app; cbn [app map]; reflexivity.
  - split; [apply app_nil_r | reflexivity].
Qed.

(** What a run of [trigger_emergency_email] leaves in the log. *)
Lemma trigger_trace (w : W) :
  exists calls text suffix lines,
    snd (snd (trigger_emergency_email config (mail_spy m) (w, [])))
    = (map Smtp calls ++ map Printed lines)%list
    /\ (calls ++ suffix)%list = all_calls config text
    /\ ((fst (trigger_emergency_email config (mail_spy m) (w, []))
         = jsonify [("message", "Emergency email sent successfully")] 200
         /\ suffix = [] /\ lines = [])
        \/ (fst (trigger_emergency_email config (mail_spy m) (w, []))
            = jsonify [("error", "Failed to send emergency email")] 500
            /\ exists e, lines = ["Email error: " ++ exn_text e])).
Proof.
  destruct (email_try_trace w) as (calls & text & suffix & Hlog & Hcalls & Hok).
  unfold trigger_emergency_email, send_emergency_email.
  destruct (email_try config (mail_spy m) (w, [])) as [[e | u] [w' log]];
    cbn [fst snd] in *.
  - exists calls, text, suffix, ["Email error: " ++ exn_text e].
    split; [rewrite Hlog; reflexivity | ]. split; [exact Hcalls | ].
    right. split; [reflexivity | eauto].
  - exists calls, text, suffix, [].
    split; [rewrite Hlog, app_nil_r; reflexivity | ].
    split; [exact Hcalls | ].
    left. split; [reflexivity | ]. split; [exact (Hok u eq_refl) | reflexivity].
Qed.




(** X10. No message is sent before the connection is made, upgraded with
    STARTTLS and logged in: a log with a message in it starts with these
    three calls. *)
Theorem mail_only_after_login (w : W) (from_addr to_addr text : string) :
  In (Smtp (SendMail from_addr to_addr text))
    (snd (snd (trigger_emergency_email config (mail_spy m) (w, [])))) ->
  exists rest,
    snd (snd (trigger_emergency_email config (mail_spy m) (w, [])))
    = Smtp (Connect "smtp.gmail.com" 587) :: Smtp StartTLS
      :: Smtp (Login (EMAIL_SENDER config) (EMAIL_PASSWORD config)) :: rest.
Proof.
  destruct (trigger_trace w)
    as (calls & text' & suffix & lines & Hlog & Hcalls & _).
  rewrite Hlog. intros Hin. unfold all_calls in Hcalls.
  assert (Hp : forall c, ~ In (Smtp c) (map Printed lines)).
  { intros c H. apply in_map_iff in H. destruct H as (l & Hl & _).
    discriminate. }
  destruct calls as [ | c1 [ | c2 [ | c3 calls]]]; cbn [app] in Hcalls.
  - exfalso. exact (Hp _ Hin).
  - injection Hcalls as -> _. exfalso.
    destruct Hin as [Hin | Hin]; [discriminate | exact (Hp _ Hin)].
  - injection Hcalls as -> -> _. exfalso.
    destruct Hin as [Hin | [Hin | Hin]]; try discriminate.
    exact (Hp _ Hin).
  - injection Hcalls as -> -> -> _. eexists. reflexivity.
Qed.

End MailTrace.

(** ** The vital signs feed *)

Lemma list_item_in_range {X : Type} (seq : list X) (i : Z) :
  0 <= i < Z.of_nat (length seq) ->
  exists x, list_item seq i = inr x /\ In x seq.
Proof.
  intros [H0 H1]. unfold list_item.
  destruct (i <? 0) eqn:E; [apply Z.ltb_lt in E; lia | ].
  destruct (0 <=? i) eqn:E0; [ | apply Z.leb_gt in E0; lia].
  destruct (i <? Z.of_nat (length seq)) eqn:E1;
    [ | apply Z.ltb_ge in E1; lia].
  cbn [andb].
  destruct (nth_error seq (Z.to_nat i)) as [x | ] eqn:Hn.
  - exists x. split; [reflexivity | ]. eapply nth_error_In; eassumption.
  - exfalso. apply nth_error_None in Hn. lia.
Qed.


(** Integer constants injected into Q, written as the numbers they are. *)
Ltac numerals :=
  repeat match goal with
    | |- context [inject_Z ?z] =>
        lazymatch z with
        | Z0 => idtac | Zpos _ => idtac | Zneg _ => idtac
        end;
        change (inject_Z z) with (z # 1)
    | H : context [inject_Z ?z] |- _ =>
        lazymatch z with
        | Z0 => idtac | Zpos _ => idtac | Zneg _ => idtac
        end;
        change (inject_Z z) with (z # 1) in H
    end.

(** [94 + 5 * r], rounded to one decimal, for [r] in [0, 1). *)
Lemma spo2_range (r : Q) :
  (0 <= r < 1)%Q ->
  exists K v,
    Arith64.round
      (Arith64.add (to_float64 (PyInt 94))
         (Arith64.mul (to_float64 (num_sub (PyInt 99) (PyInt 94))) (Fin r))) 1
    = Fin v
    /\ Fin v = Float.binary64 (inject_Z K / 10)
    /\ 940 <= K <= 990 /\ (94 <= v <= 99)%Q.
Proof.
  intros [Hr0 Hr1].
  change (to_float64 (PyInt 94)) with (Fin 94).
  change (to_float64 (num_sub (PyInt 99) (PyInt 94))) with (Fin 5).
  cbn [Arith64.mul].
  destruct (binary64_range (5 * r) 0 5 3) as (t & Ht & Ht0 & Ht1); try lia.
  { numerals. split; lra. }
  rewrite Ht. cbn [Arith64.add].
  destruct (binary64_range (94 + t) 94 99 7) as (x & Hx & Hx0 & Hx1);
    try lia.
  { numerals. split; lra. }
  rewrite Hx. cbn [Arith64.round].
  change (Float.pow10 1) with 10%Q.
  change (Float.pow10 (- (1))) with (1 # 10)%Q.
  set (K := Float.round_half_even (x * 10)).
  assert (HK0 : 940 <= K)
    by (apply round_half_even_ge; numerals; lra).
  assert (HK1 : K <= 990)
    by (apply round_half_even_le; numerals; lra).
  assert (HKq0 : (940 <= inject_Z K)%Q)
    by (change 940%Q with (inject_Z 940); rewrite <- Zle_Qle; exact HK0).
  assert (HKq1 : (inject_Z K <= 990)%Q)
    by (change 990%Q with (inject_Z 990); rewrite <- Zle_Qle; exact HK1).
  clearbody K.
  destruct (binary64_range (inject_Z K * (1 # 10)) 94 99 7)
    as (v & Hv & Hv0 & Hv1); try lia.
  { numerals. split; lra. }
  exists K, v. split; [exact Hv | ]. split; [symmetry; exact Hv | ].
  split; [lia | ]. numerals. split; assumption.
Qed.

(** [36.5 + 1.5 * r], rounded to one decimal, for [r] in [0, 1). *)
Lemma temp_range (r : Q) :
  (0 <= r < 1)%Q ->
  exists K v,
    Arith64.round
      (Arith64.add (to_float64 (PyFloat (Float.binary64 (365 # 10))))
         (Arith64.mul
            (to_float64 (num_sub (PyFloat (Float.binary64 38))
                           (PyFloat (Float.binary64 (365 # 10)))))
            (Fin r))) 1
    = Fin v
    /\ Fin v = Float.binary64 (inject_Z K / 10)
    /\ 365 <= K <= 380 /\ (365 # 10 <= v <= 38)%Q.
Proof.
  intros [Hr0 Hr1].
  change (to_float64 (PyFloat (Float.binary64 (365 # 10))))
    with (Fin (73 # 2)).
  change (to_float64 (num_sub (PyFloat (Float.binary64 38))
                        (PyFloat (Float.binary64 (365 # 10)))))
    with (Fin (3 # 2)).
  cbn [Arith64.mul].
  destruct (binary64_between ((3 # 2) * r) 0 3 1 1)
    as (t & Ht & Ht0 & Ht1); try lia.
  { change (inject_Z (2 ^ 1)) with 2%Q. numerals. lra. }
  { change (inject_Z (2 ^ 1)) with 2%Q. numerals. lra. }
  change (inject_Z (2 ^ 1)) with 2%Q in Ht0, Ht1. numerals.
  rewrite Ht. cbn [Arith64.add].
  destruct (binary64_between ((73 # 2) + t) 73 76 1 6)
    as (x & Hx & Hx0 & Hx1); try lia.
  { change (inject_Z (2 ^ 1)) with 2%Q. numerals. lra. }
  { change (inject_Z (2 ^ 1)) with 2%Q. numerals. lra. }
  change (inject_Z (2 ^ 1)) with 2%Q in Hx0, Hx1. numerals.
  rewrite Hx. cbn [Arith64.round].
  change (Float.pow10 1) with 10%Q.
  change (Float.pow10 (- (1))) with (1 # 10)%Q.
  set (K := Float.round_half_even (x * 10)).
  assert (HK0 : 365 <= K)
    by (apply round_half_even_ge; numerals; lra).
  assert (HK1 : K <= 380)
    by (apply round_half_even_le; numerals; lra).
  assert (HKq0 : (365 <= inject_Z K)%Q)
    by (change 365%Q with (inject_Z 365); rewrite <- Zle_Qle; exact HK0).
  assert (HKq1 : (inject_Z K <= 380)%Q)
    by (change 380%Q with (inject_Z 380); rewrite <- Zle_Qle; exact HK1).
  clearbody K.
  destruct (binary64_between (inject_Z K * (1 # 10)) 73 76 1 6)
    as (v & Hv & Hv0 & Hv1); try lia.
  { change (inject_Z (2 ^ 1)) with 2%Q. numerals. lra. }
  { change (inject_Z (2 ^ 1)) with 2%Q. numerals. lra. }
  change (inject_Z (2 ^ 1)) with 2%Q in Hv0, Hv1. numerals.
  exists K, v. split; [exact Hv | ]. split; [symmetry; exact Hv | ].
  split; [lia | ]. split; lra.
Qed.

Section Feed.

Context {W : Type}.
Variable py_repr : pyval -> string.
Variable rng : Random W.

Lemma choice_run {X : Type} (seq : list X) (w : W) :
  sound_rng rng -> seq <> [] ->
  exists x,
    choice rng seq w
    = (inr x, snd (rng_randbelow rng (Z.of_nat (length seq)) w))
    /\ In x seq.
Proof.
  intros [_ Hbelow] Hne. destruct seq as [ | a l]; [contradiction | ].
  unfold choice, ebind, elift, eresult.
  specialize (Hbelow (Z.of_nat (length (a :: l))) w ltac:(simpl; lia)).
  destruct (rng_randbelow rng (Z.of_nat (length (a :: l))) w) as [i w1].
  cbn [fst snd] in *.
  destruct (list_item_in_range (a :: l) i Hbelow) as (x & Hx & Hin).
  exists x. rewrite Hx. split; [reflexivity | exact Hin].
Qed.

Lemma randint_run (a b : Z) (w : W) :
  sound_rng rng -> a <= b ->
  exists i,
    randint rng a b w = (inr i, snd (rng_randbelow rng (b + 1 - a) w))
    /\ a <= i <= b.
Proof.
  intros [_ Hbelow] Hab. unfold randint, ebind, elift, eret.
  destruct (0 <? b + 1 - a) eqn:E; [ | apply Z.ltb_ge in E; lia].
  specialize (Hbelow (b + 1 - a) w ltac:(lia)).
  destruct (rng_randbelow rng (b + 1 - a) w) as [i w1].
  cbn [fst snd] in *. exists (a + i). split; [reflexivity | lia].
Qed.

Lemma uniform_run (a b : pynum) (w : W) :
  uniform rng a b w
  = (inr (Arith64.add (to_float64 a)
            (Arith64.mul (to_float64 (num_sub b a))
               (fst (rng_random rng w)))),
     snd (rng_random rng w)).
Proof.
  unfold uniform, ebind, elift, eret.
  destruct (rng_random rng w); reflexivity.
Qed.

(** One run of [live_data] with a sound random source. *)
Lemma live_data_run (w : W) :
  sound_rng rng ->
  exists ecg hr K1 spo2 K2 temp w',
    live_data py_repr rng w
    = (inr [ ("ecg", VStr (py_repr (VFloat ecg))); ("hr", VInt hr);
             ("spo2", VFloat (Fin spo2)); ("temp", VFloat (Fin temp)) ], w')
    /\ In ecg ecg_pattern
    /\ 60 <= hr <= 110
    /\ (Fin spo2 = Float.binary64 (inject_Z K1 / 10)
        /\ 940 <= K1 <= 990 /\ (94 <= spo2 <= 99)%Q)
    /\ (Fin temp = Float.binary64 (inject_Z K2 / 10)
        /\ 365 <= K2 <= 380 /\ (365 # 10 <= temp <= 38)%Q).
Proof.
  intros Hs. unfold live_data. unfold ebind at 1.
  destruct (choice_run ecg_pattern w Hs ltac:(discriminate))
    as (ecg & Hecg & Hin).
  rewrite Hecg. unfold ebind at 1.
  destruct (randint_run 60 110 (snd (rng_randbelow rng
              (Z.of_nat (length ecg_pattern)) w)) Hs ltac:(lia))
    as (hr & Hhr & Hrange).
  rewrite Hhr. unfold ebind, eret. rewrite uniform_run. cbv beta iota.
  rewrite uniform_run. cbv beta iota.
  destruct Hs as [Hrand _].
  set (s0 := snd (rng_randbelow rng (110 + 1 - 60)
                    (snd (rng_randbelow rng
                            (Z.of_nat (length ecg_pattern)) w)))).
  destruct (Hrand s0) as (r1 & Hr1 & Hb1). rewrite Hr1.
  set (s1 := snd (rng_random rng s0)).
  destruct (Hrand s1) as (r2 & Hr2 & Hb2). rewrite Hr2.
  set (s2 := snd (rng_random rng s1)).
  destruct (spo2_range r1 Hb1) as (K1 & spo2 & Hv1 & Hk1 & HK1 & Hq1).
  destruct (temp_range r2 Hb2) as (K2 & temp & Hv2 & Hk2 & HK2 & Hq2).
  exists ecg, hr, K1, spo2, K2, temp, s2.
  rewrite Hv1, Hv2. split; [reflexivity | ].
  split; [exact Hin | ]. split; [exact Hrange | ]. split; tauto.
Qed.

(** X11. With a sound random source [live_data] never raises; the
    [ecg] it reports is the text of one of the 14 readings of
    [ecg_pattern] and [hr] is an int from 60 to 110, both ends included. *)
Theorem feed_ecg_and_hr (w : W) :
  sound_rng rng ->
  exists body w',
    live_data py_repr rng w = (inr body, w')
    /\ (exists reading,
           In reading ecg_pattern
           /\ dict_lookup body "ecg" = Some (VStr (py_repr (VFloat reading))))
    /\ (exists hr, dict_lookup body "hr" = Some (VInt hr) /\ 60 <= hr <= 110).
Proof.
  intros Hs.
  destruct (live_data_run w Hs)
    as (ecg & hr & K1 & spo2 & K2 & temp & w' & Hrun & Hin & Hhr & _ & _).
  eexists. exists w'. split; [exact Hrun | ]. split.
  - exists ecg. split; [exact Hin | reflexivity].
  - exists hr. split; [reflexivity | exact Hhr].
Qed.

(** X12. With a sound random source, [spo2] is the float nearest to one
    of the one-decimal numbers from 94.0 to 99.0 and [temp] the float
    nearest to one from 36.5 to 38.0: the arithmetic of [uniform] and the
    rounding never leave these ranges. *)
Theorem feed_spo2_and_temp (w : W) :
  sound_rng rng ->
  exists body w' spo2 temp K1 K2,
    live_data py_repr rng w = (inr body, w')
    /\ dict_lookup body "spo2" = Some (VFloat (Fin spo2))
    /\ dict_lookup body "temp" = Some (VFloat (Fin temp))
    /\ Fin spo2 = Float.binary64 (inject_Z K1 / 10)
    /\ 940 <= K1 <= 990 /\ (94 <= spo2 <= 99)%Q
    /\ Fin temp = Float.binary64 (inject_Z K2 / 10)
    /\ 365 <= K2 <= 380 /\ (365 # 10 <= temp <= 38)%Q.
Proof.
  intros Hs.
  destruct (live_data_run w Hs)
    as (ecg & hr & K1 & spo2 & K2 & temp & w' & Hrun & _ & _ & H1 & H2).
  eexists. exists w', spo2, temp, K1, K2.
  split; [exact Hrun | ]. split; [reflexivity | ]. split; [reflexivity | ].
  tauto.
Qed.

End Feed.

Lemma stub_rng_sound : sound_rng Stub.rng.
Proof.
  assert (Hnext : forall draws, 0 <= fst (Stub.next draws) < 2 ^ 53).
  { intros [ | k rest]; cbn [Stub.next fst].
    - split; [lia | apply Z.pow_pos_nonneg; lia].
    - apply Z.mod_pos_bound. apply Z.pow_pos_nonneg; lia. }
  split.
  - intros w. specialize (Hnext w). cbn [Stub.rng rng_random].
    destruct (Stub.next w) as [k rest]. cbn [fst] in *.
    exists (k # 9007199254740992). split; [reflexivity | ].
    change (2 ^ 53) with 9007199254740992 in Hnext.
    unfold Qle, Qlt. cbn [Qnum Qden]. lia.
  - intros n w Hn. cbn [Stub.rng rng_randbelow].
    destruct (Stub.next w) as [k rest]. cbn [fst].
    apply Z.mod_pos_bound. exact Hn.
Qed.

(** ** The added properties on the stand-ins *)

(** A JSON array as payload. *)
Lemma array_payload_is_500 :
  predict Repr.py_repr (Mock.artifacts unit 14 (Fin 0)) (VList [VInt 1]) tt
  = (jsonify [("error", "'list' object has no attribute 'get'")] 500, tt).
Proof.
  exact (non_object_payload_is_500 Repr.py_repr
           (Mock.artifacts unit 14 (Fin 0)) (VList [VInt 1]) tt I).
Defined.


(** Scenario A with its keys reversed, two more keys in front, one of
    them null, and one more at the end. *)
Lemma extras_and_order_ignored :
  predict Repr.py_repr (Mock.artifacts unit 14 Mock.p_34999)
    (VDict Stub.patient_with_extras) tt
  = predict Repr.py_repr (Mock.artifacts unit 14 Mock.p_34999)
      (VDict Mock.patient) tt.
Proof.
  apply (only_question_values_matter Repr.py_repr
           (Mock.artifacts unit 14 Mock.p_34999)
           Stub.patient_with_extras Mock.patient tt).
  intros q Hin. simpl in Hin.
  repeat (destruct Hin as [<- | Hin]; [reflexivity | ]).
  contradiction.
Defined.

Lemma tiers_of_3499_and_35 :
  (3499 # 100 <= 35)%Q
  /\ (tier_rank (risk_level (Fin (3499 # 100)))
      <= tier_rank (risk_level (Fin 35)))%nat.
Proof.
  assert (H : (3499 # 100 <= 35)%Q) by literal.
  split; [exact H | exact (risk_level_monotone (3499 # 100) 35 H)].
Defined.





(** The message to the main recipient comes fourth. *)
Lemma stub_mail_after_login :
  In (Smtp (SendMail "alerts@example.org" "doctor@example.org" Stub.text))
    (snd (snd (trigger_emergency_email Stub.config
                 (mail_spy (Stub.mailer 4)) (0%nat, []))))
  /\ exists rest,
       snd (snd (trigger_emergency_email Stub.config
                   (mail_spy (Stub.mailer 4)) (0%nat, [])))
       = Smtp (Connect "smtp.gmail.com" 587) :: Smtp StartTLS
         :: Smtp (Login (EMAIL_SENDER Stub.config)
                    (EMAIL_PASSWORD Stub.config)) :: rest.
Proof.
  assert (H : In (Smtp (SendMail "alerts@example.org" "doctor@example.org"
                          Stub.text))
                (snd (snd (trigger_emergency_email Stub.config
                             (mail_spy (Stub.mailer 4)) (0%nat, [])))))
    by (vm_compute; do 3 right; left; reflexivity).
  split; [exact H | ].
  exact (mail_only_after_login Stub.config (Stub.mailer 4) 0%nat _ _ _ H).
Defined.

(** Four draws replayed: the fourth reading, 60 + 50, and the two ends of
    [random()]. *)
Lemma stub_feed_ecg_and_hr :
  sound_rng Stub.rng
  /\ exists body w',
       live_data Repr.py_repr Stub.rng [3; 50; 0; 2 ^ 53 - 1]
       = (inr body, w')
       /\ (exists reading,
              In reading ecg_pattern
              /\ dict_lookup body "ecg"
                 = Some (VStr (Repr.py_repr (VFloat reading))))
       /\ (exists hr,
              dict_lookup body "hr" = Some (VInt hr) /\ 60 <= hr <= 110).
Proof.
  split; [exact stub_rng_sound | ].
  exact (feed_ecg_and_hr Repr.py_repr Stub.rng [3; 50; 0; 2 ^ 53 - 1]
           stub_rng_sound).
Defined.

Lemma stub_feed_spo2_and_temp :
  sound_rng Stub.rng
  /\ exists body w' spo2 temp K1 K2,
       live_data Repr.py_repr Stub.rng [3; 50; 0; 2 ^ 53 - 1]
       = (inr body, w')
       /\ dict_lookup body "spo2" = Some (VFloat (Fin spo2))
       /\ dict_lookup body "temp" = Some (VFloat (Fin temp))
       /\ Fin spo2 = Float.binary64 (inject_Z K1 / 10)
       /\ 940 <= K1 <= 990 /\ (94 <= spo2 <= 99)%Q
       /\ Fin temp = Float.binary64 (inject_Z K2 / 10)
       /\ 365 <= K2 <= 380 /\ (365 # 10 <= temp <= 38)%Q.
Proof.
  split; [exact stub_rng_sound | ].
  exact (feed_spo2_and_temp Repr.py_repr Stub.rng [3; 50; 0; 2 ^ 53 - 1]
           stub_rng_sound).
Defined.

